(** * Cart modifiers of django-shop: [shop/modifiers/base.py]

    A shallow embedding of the three modifier base classes
    ([BaseCartModifier], [PaymentModifier], [ShippingModifier]) and of the
    cart pipeline that drives them, followed by the properties the
    specification states about them.

    Conventions of the embedding:
    - Python values that end up in [cart.extra] or in an identifier are the
      scalars of [PyVal]; [py_eq] is Python's [==] on them and [truthy] is
      Python's truth test, as used by [or].
    - Money amounts are integers (minor currency units).
    - A dict is a [gmap] with string keys.
    - A class is a record of class-level data: its name, its class attribute
      [identifier] when the class body (or one of its bases) defines one, and
      the methods it overrides.  A method the class does not override is
      inherited from the base class, as Python's attribute lookup does.
    - Methods that mutate the cart are functions on a [Store]: the cart
      together with the log of method calls made so far. *)

From Stdlib Require Import ZArith List Ascii String.
From stdpp Require Import gmap strings list.

Local Open Scope Z_scope.
Local Open Scope string_scope.
Local Open Scope list_scope.

(** ** Python values *)

Inductive PyVal : Type :=
| PyNone
| PyBool (b : bool)
| PyInt (z : Z)
| PyStr (s : string).

(** Truth value of an object, as tested by [or], [and], [if]. *)
Definition truthy (v : PyVal) : bool :=
  match v with
  | PyNone => false
  | PyBool b => b
  | PyInt z => negb (Z.eqb z 0)
  | PyStr s => negb (String.eqb s "")
  end.

(** [a or b]: [a] when it is true, else [b]. *)
Definition py_or (a b : PyVal) : PyVal := if truthy a then a else b.

(** Python's [==].  [bool] is a subclass of [int]: [True == 1]. *)
Definition as_int (v : PyVal) : option Z :=
  match v with
  | PyBool b => Some (if b then 1 else 0)
  | PyInt z => Some z
  | _ => None
  end.

Definition py_eq (a b : PyVal) : bool :=
  match a, b with
  | PyNone, PyNone => true
  | PyStr s, PyStr t => String.eqb s t
  | _, _ =>
      match as_int a, as_int b with
      | Some x, Some y => Z.eqb x y
      | _, _ => false
      end
  end.

(** [d.get(k)]: the value stored under [k], [None] when there is none. *)
Definition dict_get (d : gmap string PyVal) (k : string) : PyVal :=
  match d !! k with
  | Some v => v
  | None => PyNone
  end.

(** [str.lower()] on the ASCII letters a class name is made of. *)
Definition lower_ascii (c : ascii) : ascii :=
  let n := nat_of_ascii c in
  if (Nat.leb 65 n && Nat.leb n 90)%bool then ascii_of_nat (n + 32) else c.

Fixpoint lower (s : string) : string :=
  match s with
  | EmptyString => EmptyString
  | String c r => String (lower_ascii c) (lower r)
  end.

(** ** Exceptions *)

Inductive PyExc : Type :=
| TypeError (msg : string)
| NotImplementedError (msg : string).

(** The result of a call: an exception that propagates, or a value. *)
Definition PyResult (A : Type) : Type := PyExc + A.

(** [NotImplemented(...)]: the builtin constant [NotImplemented] is not an
    exception class but a plain singleton, and it has no [__call__]. *)
Definition call_NotImplemented (args : list PyVal) : PyResult PyVal :=
  inl (TypeError "'NotImplementedType' object is not callable").

(** [raise e]: the operand is evaluated first; an exception of that
    evaluation propagates, and a value that is no exception cannot be
    raised. *)
Definition py_raise {A : Type} (operand : PyResult PyVal) : PyResult A :=
  match operand with
  | inl exc => inl exc
  | inr _ => inl (TypeError "exceptions must derive from BaseException")
  end.

(** ** Data model: cart, items, extra rows *)

Record ExtraRow : Type := {
  label : string;
  amount : Z;
  data : gmap string PyVal
}.

Record CartItem : Type := {
  unit_price : Z;
  quantity : Z;
  line_total : Z;
  item_extra_rows : list ExtraRow
}.

Record Cart : Type := {
  items : list CartItem;
  subtotal : Z;
  total : Z;
  extra : gmap string PyVal;
  extra_rows : list ExtraRow
}.

(** The HTTP request handed to every hook; the base classes never read it. *)
Definition Request : Type := gmap string PyVal.

(** A value of the rendering context: a nested dict, or any other object. *)
Inductive CtxVal : Type :=
| CtxDict (d : gmap string PyVal)
| CtxObj (v : PyVal).

(** ** Classes and instances *)

(** What a modifier class defines at class level.  Each [cls_<method>] is
    the body of an overriding method ([None]: the method is inherited from
    [BaseCartModifier], [PaymentModifier] or [ShippingModifier]).  The item a
    per-item hook works on is given by its position in [cart.items]. *)
Record ModifierClass : Type := {
  cls_name : string;
  cls_identifier : option PyVal;
  cls_pre_process_cart : option (Request -> Cart -> Cart);
  cls_pre_process_cart_item : option (nat -> Request -> Cart -> Cart);
  cls_process_cart_item : option (nat -> Request -> Cart -> Cart);
  cls_process_cart : option (Request -> Cart -> Cart);
  cls_post_process_cart : option (Request -> Cart -> Cart);
  cls_add_extra_cart_item_row : option (nat -> Request -> Cart -> Cart);
  cls_add_extra_cart_row : option (Request -> Cart -> Cart);
  cls_get_choice : option (PyVal * PyVal);
  cls_is_disabled : option (Cart -> bool)
}.

(** An instance: its class and the attribute [identifier] set by
    [__init__]. *)
Record Modifier : Type := {
  mod_class : ModifierClass;
  identifier : PyVal
}.

(** The hooks of the modifier protocol. *)
Inductive Hook : Type :=
| pre_process_cart_hook
| pre_process_cart_item_hook (i : nat)
| process_cart_item_hook (i : nat)
| process_cart_hook
| post_process_cart_hook
| add_extra_cart_item_row_hook (i : nat)
| add_extra_cart_row_hook.

Record Call : Type := {
  callee : Modifier;
  hook : Hook
}.

(** The mutable world of one cart update: the cart and the calls made. *)
Record Store : Type := {
  cart : Cart;
  calls : list Call
}.

Definition record_call (self : Modifier) (h : Hook) (s : Store) : Store :=
  {| cart := cart s; calls := calls s ++ [{| callee := self; hook := h |}] |}.

Definition on_cart (f : Cart -> Cart) (s : Store) : Store :=
  {| cart := f (cart s); calls := calls s |}.

(** [self.<method>(...)]: the call is recorded, then the method found on the
    class of [self] runs: the override when there is one, else the
    inherited body. *)
Definition dispatch (self : Modifier) (h : Hook)
    (override : option (Cart -> Cart)) (inherited : Store -> Store)
    (s : Store) : Store :=
  let s' := record_call self h s in
  match override with
  | Some body => on_cart body s'
  | None => inherited s'
  end.

(** ** class BaseCartModifier *)

Module BaseCartModifier.

(** [getattr(self, 'identifier', default)] inside [__init__]: the instance
    has no attribute of its own yet, so the lookup finds the class
    attribute when there is one. *)
Definition getattr_identifier (cls : ModifierClass) (default : PyVal) : PyVal :=
  match cls_identifier cls with
  | Some v => v
  | None => default
  end.

(** [cls(identifier)]: a new instance, initialised by [__init__];
    [identifier] is [PyNone] when the caller supplies none. *)
Definition __init__ (cls : ModifierClass) (identifier : PyVal) : Modifier :=
  {| mod_class := cls;
     identifier :=
       py_or identifier
             (getattr_identifier cls (PyStr (lower (cls_name cls)))) |}.

Definition arrange_watch_items {A : Type} (self : Modifier)
    (watch_items : list A) (request : Request) : list A :=
  watch_items.

Definition arrange_cart_items {A : Type} (self : Modifier)
    (cart_items : list A) (request : Request) : list A :=
  cart_items.

Definition pre_process_cart (self : Modifier) (request : Request)
    (s : Store) : Store := s.

Definition pre_process_cart_item (self : Modifier) (item : nat)
    (request : Request) (s : Store) : Store := s.

Definition add_extra_cart_item_row (self : Modifier) (cart_item : nat)
    (request : Request) (s : Store) : Store := s.

Definition add_extra_cart_row (self : Modifier) (request : Request)
    (s : Store) : Store := s.

(** [self.add_extra_cart_item_row(cart_item, request)] *)
Definition self_add_extra_cart_item_row (self : Modifier) (cart_item : nat)
    (request : Request) : Store -> Store :=
  dispatch self (add_extra_cart_item_row_hook cart_item)
    (option_map (fun f => f cart_item request)
                (cls_add_extra_cart_item_row (mod_class self)))
    (add_extra_cart_item_row self cart_item request).

(** [self.add_extra_cart_row(cart, request)] *)
Definition self_add_extra_cart_row (self : Modifier) (request : Request)
    : Store -> Store :=
  dispatch self add_extra_cart_row_hook
    (option_map (fun f => f request) (cls_add_extra_cart_row (mod_class self)))
    (add_extra_cart_row self request).

Definition process_cart_item (self : Modifier) (cart_item : nat)
    (request : Request) (s : Store) : Store :=
  self_add_extra_cart_item_row self cart_item request s.

Definition process_cart (self : Modifier) (request : Request)
    (s : Store) : Store :=
  self_add_extra_cart_row self request s.

Definition post_process_cart (self : Modifier) (request : Request)
    (s : Store) : Store := s.

End BaseCartModifier.

(** ** class PaymentModifier(BaseCartModifier) *)

Module PaymentModifier.

Definition get_choice (self : Modifier) : PyResult (PyVal * PyVal) :=
  py_raise
    (call_NotImplemented [PyStr "Must be implemented by the inheriting class"]).

Definition is_active (self : Modifier) (cart : Cart) : bool :=
  py_eq (dict_get (extra cart) "payment_modifier") (identifier self).

Definition is_disabled (self : Modifier) (cart : Cart) : bool := false.

Definition update_render_context (self : Modifier)
    (context : gmap string CtxVal) : gmap string CtxVal :=
  match context !! "payment_modifiers" with
  | None => <["payment_modifiers" := CtxDict ∅]> context
  | Some _ => context
  end.

End PaymentModifier.

(** ** class ShippingModifier(BaseCartModifier) *)

Module ShippingModifier.

Definition get_choice (self : Modifier) : PyResult (PyVal * PyVal) :=
  py_raise
    (call_NotImplemented [PyStr "Must be implemented by the inheriting class"]).

Definition is_active (self : Modifier) (cart : Cart) : bool :=
  py_eq (dict_get (extra cart) "shipping_modifier") (identifier self).

Definition is_disabled (self : Modifier) (cart : Cart) : bool := false.

Definition update_render_context (self : Modifier)
    (context : gmap string CtxVal) : gmap string CtxVal :=
  match context !! "shipping_modifiers" with
  | None => <["shipping_modifiers" := CtxDict ∅]> context
  | Some _ => context
  end.

End ShippingModifier.


(** ** Calling a method on a modifier instance *)

(** The two roles a modifier can take besides plain cart arithmetic. *)
Inductive Role : Type := Payment | Shipping.

Definition role_get_choice (r : Role) : Modifier -> PyResult (PyVal * PyVal) :=
  match r with
  | Payment => PaymentModifier.get_choice
  | Shipping => ShippingModifier.get_choice
  end.

Definition role_is_active (r : Role) : Modifier -> Cart -> bool :=
  match r with
  | Payment => PaymentModifier.is_active
  | Shipping => ShippingModifier.is_active
  end.

Definition role_is_disabled (r : Role) : Modifier -> Cart -> bool :=
  match r with
  | Payment => PaymentModifier.is_disabled
  | Shipping => ShippingModifier.is_disabled
  end.

Definition role_update_render_context (r : Role)
    : Modifier -> gmap string CtxVal -> gmap string CtxVal :=
  match r with
  | Payment => PaymentModifier.update_render_context
  | Shipping => ShippingModifier.update_render_context
  end.

(** The key of [cart.extra] that records the selected modifier of a role,
    and the key of the rendering context that holds the role's sub-dict. *)
Definition selection_key (r : Role) : string :=
  match r with
  | Payment => "payment_modifier"
  | Shipping => "shipping_modifier"
  end.

Definition namespace_key (r : Role) : string :=
  match r with
  | Payment => "payment_modifiers"
  | Shipping => "shipping_modifiers"
  end.

(** [m.get_choice()] on an instance [m] of a subclass of the role's base. *)
Definition call_get_choice (r : Role) (m : Modifier) : PyResult (PyVal * PyVal) :=
  match cls_get_choice (mod_class m) with
  | Some choice => inr choice
  | None => role_get_choice r m
  end.

(** [m.is_disabled(cart)] *)
Definition call_is_disabled (r : Role) (m : Modifier) (c : Cart) : bool :=
  match cls_is_disabled (mod_class m) with
  | Some body => body c
  | None => role_is_disabled r m c
  end.

(** [m.pre_process_cart(cart, request)] and the other hooks. *)
Definition call_pre_process_cart (m : Modifier) (request : Request)
    : Store -> Store :=
  dispatch m pre_process_cart_hook
    (option_map (fun f => f request) (cls_pre_process_cart (mod_class m)))
    (BaseCartModifier.pre_process_cart m request).

Definition call_pre_process_cart_item (m : Modifier) (i : nat)
    (request : Request) : Store -> Store :=
  dispatch m (pre_process_cart_item_hook i)
    (option_map (fun f => f i request) (cls_pre_process_cart_item (mod_class m)))
    (BaseCartModifier.pre_process_cart_item m i request).

Definition call_process_cart_item (m : Modifier) (i : nat)
    (request : Request) : Store -> Store :=
  dispatch m (process_cart_item_hook i)
    (option_map (fun f => f i request) (cls_process_cart_item (mod_class m)))
    (BaseCartModifier.process_cart_item m i request).

Definition call_process_cart (m : Modifier) (request : Request)
    : Store -> Store :=
  dispatch m process_cart_hook
    (option_map (fun f => f request) (cls_process_cart (mod_class m)))
    (BaseCartModifier.process_cart m request).

Definition call_post_process_cart (m : Modifier) (request : Request)
    : Store -> Store :=
  dispatch m post_process_cart_hook
    (option_map (fun f => f request) (cls_post_process_cart (mod_class m)))
    (BaseCartModifier.post_process_cart m request).

(** ** The pipeline *)

(** [sum(xs)]: start at 0 and add from the left. *)
Definition py_sum (xs : list Z) : Z := fold_left Z.add xs 0.

Definition set_subtotal (v : Z) (c : Cart) : Cart :=
  {| items := items c; subtotal := v; total := total c;
     extra := extra c; extra_rows := extra_rows c |}.

(** [for x in xs: body(x)] *)
Definition for_each {A : Type} (xs : list A) (body : A -> Store -> Store)
    (s : Store) : Store :=
  fold_left (fun acc x => body x acc) xs s.

Module Pipeline.

(** Modelled from the spec: the driver of the modifiers ([Pipeline.run], the
    cart's update) is not part of [shop/modifiers/base.py].  The six steps
    are those of section 4.4: every modifier's [pre_process_cart]; per item,
    every modifier's [pre_process_cart_item]; per item, every modifier's
    [process_cart_item]; the subtotal; every modifier's [process_cart]; and
    [post_process_cart] over the reversed list.  A loop over [cart.items]
    visits the positions the list has when the loop starts. *)
Definition run (M : list Modifier) (context : Request) (c : Cart) : Store :=
  let s0 := {| cart := c; calls := [] |} in
  let s1 := for_each M (fun m => call_pre_process_cart m context) s0 in
  let s2 :=
    for_each (seq 0 (length (items (cart s1))))
      (fun i => for_each M (fun m => call_pre_process_cart_item m i context))
      s1 in
  let s3 :=
    for_each (seq 0 (length (items (cart s2))))
      (fun i => for_each M (fun m => call_process_cart_item m i context))
      s2 in
  let s4 :=
    on_cart (fun c => set_subtotal (py_sum (map line_total (items c))) c) s3 in
  let s5 := for_each M (fun m => call_process_cart m context) s4 in
  for_each (rev M) (fun m => call_post_process_cart m context) s5.

End Pipeline.

(** The subtotal agrees with the line totals. *)
Definition consistent (c : Cart) : Prop :=
  subtotal c = py_sum (map line_total (items c)).

(** A method that never breaks that agreement. *)
Definition keeps_subtotal (f : Store -> Store) : Prop :=
  forall s, consistent (cart s) -> consistent (cart (f s)).

(** The modifiers of a call log that were sent a given hook, in call order. *)
Definition is_hook (h : Hook) (c : Call) : bool :=
  match h, hook c with
  | pre_process_cart_hook, pre_process_cart_hook => true
  | pre_process_cart_item_hook i, pre_process_cart_item_hook j => Nat.eqb i j
  | process_cart_item_hook i, process_cart_item_hook j => Nat.eqb i j
  | process_cart_hook, process_cart_hook => true
  | post_process_cart_hook, post_process_cart_hook => true
  | add_extra_cart_item_row_hook i, add_extra_cart_item_row_hook j => Nat.eqb i j
  | add_extra_cart_row_hook, add_extra_cart_row_hook => true
  | _, _ => false
  end.

Definition receivers (h : Hook) (log : list Call) : list Modifier :=
  map callee (List.filter (is_hook h) log).

(** ** The call log a run is expected to leave *)

Definition call_of (h : Hook) (m : Modifier) : Call :=
  {| callee := m; hook := h |}.

(** Calls made by [m.process_cart_item(item i)]: the call itself and, when
    the method is the inherited one, its call of the row method. *)
Definition log_process_cart_item (i : nat) (m : Modifier) : list Call :=
  call_of (process_cart_item_hook i) m ::
  match cls_process_cart_item (mod_class m) with
  | Some _ => []
  | None => [call_of (add_extra_cart_item_row_hook i) m]
  end.

Definition log_process_cart (m : Modifier) : list Call :=
  call_of process_cart_hook m ::
  match cls_process_cart (mod_class m) with
  | Some _ => []
  | None => [call_of add_extra_cart_row_hook m]
  end.

(** The whole log, for a cart with [n_pre] items when the second step starts
    and [n_item] items when the third starts. *)
Definition expected_calls (M : list Modifier) (n_pre n_item : nat) : list Call :=
  map (call_of pre_process_cart_hook) M
  ++ concat (map (fun i => map (call_of (pre_process_cart_item_hook i)) M)
                 (seq 0 n_pre))
  ++ concat (map (fun i => concat (map (log_process_cart_item i) M))
                 (seq 0 n_item))
  ++ concat (map log_process_cart M).

(** ** Sample classes, modifiers and carts *)

(** A subclass with an empty body: [class <name>(...): pass]. *)
Definition plain_class (name : string) : ModifierClass :=
  {| cls_name := name; cls_identifier := None;
     cls_pre_process_cart := None; cls_pre_process_cart_item := None;
     cls_process_cart_item := None; cls_process_cart := None;
     cls_post_process_cart := None;
     cls_add_extra_cart_item_row := None; cls_add_extra_cart_row := None;
     cls_get_choice := None; cls_is_disabled := None |}.

(** A subclass whose body only sets the class attribute [identifier]. *)
Definition PayInAdvanceModifier : ModifierClass :=
  {| cls_name := "PayInAdvanceModifier";
     cls_identifier := Some (PyStr "pay-in-advance");
     cls_pre_process_cart := None; cls_pre_process_cart_item := None;
     cls_process_cart_item := None; cls_process_cart := None;
     cls_post_process_cart := None;
     cls_add_extra_cart_item_row := None; cls_add_extra_cart_row := None;
     cls_get_choice := None; cls_is_disabled := None |}.

Definition set_line_total (v : Z) (it : CartItem) : CartItem :=
  {| unit_price := unit_price it; quantity := quantity it; line_total := v;
     item_extra_rows := item_extra_rows it |}.

Definition set_items (its : list CartItem) (c : Cart) : Cart :=
  {| items := its; subtotal := subtotal c; total := total c;
     extra := extra c; extra_rows := extra_rows c |}.

Definition set_total (v : Z) (c : Cart) : Cart :=
  {| items := items c; subtotal := subtotal c; total := v;
     extra := extra c; extra_rows := extra_rows c |}.

Definition add_row (r : ExtraRow) (c : Cart) : Cart :=
  {| items := items c; subtotal := subtotal c; total := total c;
     extra := extra c; extra_rows := extra_rows c ++ [r] |}.

(** The pricing modifier of the specification's scenarios: the line total is
    unit price times quantity, the total is the subtotal. *)
Definition DefaultPricing : ModifierClass :=
  {| cls_name := "DefaultPricing"; cls_identifier := None;
     cls_pre_process_cart := None; cls_pre_process_cart_item := None;
     cls_process_cart_item :=
       Some (fun i _ c =>
               set_items
                 (alter (fun it => set_line_total (unit_price it * quantity it) it)
                        i (items c)) c);
     cls_process_cart := Some (fun _ c => set_total (subtotal c) c);
     cls_post_process_cart := None;
     cls_add_extra_cart_item_row := None; cls_add_extra_cart_row := None;
     cls_get_choice := None; cls_is_disabled := None |}.

(** Ten percent tax on the subtotal, shown as an extra row. *)
Definition FlatTax10pct : ModifierClass :=
  {| cls_name := "FlatTax10pct"; cls_identifier := None;
     cls_pre_process_cart := None; cls_pre_process_cart_item := None;
     cls_process_cart_item := None;
     cls_process_cart :=
       Some (fun _ c =>
               add_row {| label := "Tax"; amount := subtotal c * 10 / 100;
                          data := ∅ |}
                       (set_total (subtotal c * 110 / 100) c));
     cls_post_process_cart := None;
     cls_add_extra_cart_item_row := None; cls_add_extra_cart_row := None;
     cls_get_choice := None; cls_is_disabled := None |}.

(** A modifier that zeroes the subtotal once the cart is processed. *)
Definition SubtotalEraser : ModifierClass :=
  {| cls_name := "SubtotalEraser"; cls_identifier := None;
     cls_pre_process_cart := None; cls_pre_process_cart_item := None;
     cls_process_cart_item := None; cls_process_cart := None;
     cls_post_process_cart := Some (fun _ c => set_subtotal 0 c);
     cls_add_extra_cart_item_row := None; cls_add_extra_cart_row := None;
     cls_get_choice := None; cls_is_disabled := None |}.

Definition default_pricing : Modifier :=
  BaseCartModifier.__init__ DefaultPricing PyNone.

Definition flat_tax : Modifier :=
  BaseCartModifier.__init__ FlatTax10pct PyNone.

Definition standard : Modifier :=
  BaseCartModifier.__init__ (plain_class "ShippingModifier") (PyStr "standard").

Definition express : Modifier :=
  BaseCartModifier.__init__ (plain_class "ShippingModifier") (PyStr "express").

(** One item, quantity 2, unit price 10.00; no totals yet. *)
Definition sample_cart : Cart :=
  {| items := [ {| unit_price := 1000; quantity := 2; line_total := 0;
                   item_extra_rows := [] |} ];
     subtotal := 0; total := 0; extra := ∅; extra_rows := [] |}.

Definition express_cart : Cart :=
  {| items := []; subtotal := 0; total := 0;
     extra := {[ "shipping_modifier" := PyStr "express" ]};
     extra_rows := [] |}.

(** A rendering context in which ['payment_modifiers'] is already taken. *)
Definition sample_context : gmap string CtxVal :=
  {[ "payment_modifiers" := CtxObj (PyInt 7) ]}.

(** ** Recording a selection; classes that override no hook *)

Definition set_extra (e : gmap string PyVal) (c : Cart) : Cart :=
  {| items := items c; subtotal := subtotal c; total := total c;
     extra := e; extra_rows := extra_rows c |}.

(** [cart.extra['payment_modifier'] = v] (resp. ['shipping_modifier']): how
    a caller records the modifier chosen for a role. *)
Definition select (r : Role) (v : PyVal) (c : Cart) : Cart :=
  set_extra (<[selection_key r := v]> (extra c)) c.

(** The class body defines none of the hooks of the cart protocol. *)
Definition inherits_all_hooks (cls : ModifierClass) : Prop :=
  cls_pre_process_cart cls = None /\
  cls_pre_process_cart_item cls = None /\
  cls_process_cart_item cls = None /\
  cls_process_cart cls = None /\
  cls_post_process_cart cls = None /\
  cls_add_extra_cart_item_row cls = None /\
  cls_add_extra_cart_row cls = None.

(** A subclass whose body sets the class attribute to [None]:
    [class NoneIdentifierModifier(PaymentModifier): identifier = None]. *)
Definition NoneIdentifierModifier : ModifierClass :=
  {| cls_name := "NoneIdentifierModifier";
     cls_identifier := Some PyNone;
     cls_pre_process_cart := None; cls_pre_process_cart_item := None;
     cls_process_cart_item := None; cls_process_cart := None;
     cls_post_process_cart := None;
     cls_add_extra_cart_item_row := None; cls_add_extra_cart_row := None;
     cls_get_choice := None; cls_is_disabled := None |}.

(** A modifier that, once the cart is processed, takes one minor unit off
    every line total and leaves the cart's subtotal as it is. *)
Definition RoundingCorrection : ModifierClass :=
  {| cls_name := "RoundingCorrection"; cls_identifier := None;
     cls_pre_process_cart := None; cls_pre_process_cart_item := None;
     cls_process_cart_item := None; cls_process_cart := None;
     cls_post_process_cart :=
       Some (fun _ c =>
               set_items
                 (map (fun it => set_line_total (line_total it - 1) it)
                      (items c)) c);
     cls_add_extra_cart_item_row := None; cls_add_extra_cart_row := None;
     cls_get_choice := None; cls_is_disabled := None |}.

(** ** The scenarios of the specification, run on the model *)

Example scenario_default_pricing :
  let c := cart (Pipeline.run [default_pricing] ∅ sample_cart) in
  map line_total (items c) = [2000] /\ subtotal c = 2000 /\ total c = 2000.
Proof. vm_compute. repeat split. Qed.

Example scenario_flat_tax :
  let c := cart (Pipeline.run [default_pricing; flat_tax] ∅ sample_cart) in
  total c = 2200 /\ map (fun r => (label r, amount r)) (extra_rows c) = [("Tax", 200)].
Proof. vm_compute. repeat split. Qed.

Example scenario_shipping_choice :
  ShippingModifier.is_active express express_cart = true /\
  ShippingModifier.is_active standard express_cart = false.
Proof. vm_compute. repeat split. Qed.

Example default_identifier_of_plain_class :
  identifier (BaseCartModifier.__init__ (plain_class "FlatTax10pct") PyNone)
  = PyStr "flattax10pct".
Proof. reflexivity. Qed.

Example get_choice_is_a_type_error :
  PaymentModifier.get_choice standard
  = inl (TypeError "'NotImplementedType' object is not callable").
Proof. reflexivity. Qed.

(** ** Values and equality *)

Lemma py_eq_None_l (v : PyVal) : py_eq PyNone v = true <-> v = PyNone.
Proof.
  split.
  - destruct v; simpl; intros H; try discriminate H; reflexivity.
  - intros ->. reflexivity.
Qed.

Lemma py_eq_refl (v : PyVal) : py_eq v v = true.
Proof.
  destruct v as [|b|z|s]; simpl.
  - reflexivity.
  - destruct b; reflexivity.
  - apply Z.eqb_refl.
  - apply String.eqb_refl.
Qed.

Lemma py_eq_str (s : string) (v : PyVal) :
  py_eq v (PyStr s) = true <-> v = PyStr s.
Proof.
  split.
  - destruct v as [|b|z|t]; simpl; try discriminate.
    intros H. apply String.eqb_eq in H. now subst.
  - intros ->. apply py_eq_refl.
Qed.

Lemma py_or_None (v : PyVal) : py_or PyNone v = v.
Proof. reflexivity. Qed.

(** ** Activation of payment and shipping modifiers *)

Lemma role_is_active_unfold (r : Role) (self : Modifier) (c : Cart) :
  role_is_active r self c
  = py_eq (dict_get (extra c) (selection_key r)) (identifier self).
Proof. destruct r; reflexivity. Qed.

Lemma role_is_active_iff (r : Role) (self : Modifier) (c : Cart) :
  identifier self <> PyNone ->
  role_is_active r self c = true <->
  exists v, extra c !! selection_key r = Some v /\
            py_eq v (identifier self) = true.
Proof.
  intros Hid. rewrite role_is_active_unfold. unfold dict_get.
  destruct (extra c !! selection_key r) as [v|] eqn:E.
  - split.
    + intros H. exists v. split; [reflexivity | exact H].
    + intros (w & Hw & H). injection Hw as <-. exact H.
  - split.
    + intros H. apply py_eq_None_l in H. contradiction.
    + intros (w & Hw & _). discriminate Hw.
Qed.

(** C1, as stated, fails on an instance whose identifier is [None], which
    the constructor builds from a class attribute [identifier = None]: on a
    cart whose [extra] has no ['payment_modifier'] (resp.
    ['shipping_modifier']) entry, [cart.extra.get(...)] is [None] too and
    [is_active] answers true. *)
Lemma is_active_true_on_absent_key :
  identifier (BaseCartModifier.__init__ NoneIdentifierModifier PyNone) = PyNone
  /\ extra sample_cart !! "payment_modifier" = None
  /\ PaymentModifier.is_active
       (BaseCartModifier.__init__ NoneIdentifierModifier PyNone) sample_cart
     = true
  /\ extra sample_cart !! "shipping_modifier" = None
  /\ ShippingModifier.is_active
       (BaseCartModifier.__init__ NoneIdentifierModifier PyNone) sample_cart
     = true.
Proof. repeat split. Qed.

(** C1, amended.  For a modifier whose identifier is not [None] (the data
    model makes it a string), [is_active(cart)] is true exactly when
    [cart.extra] holds,
    under ['payment_modifier'] (resp. ['shipping_modifier']), a value equal
    ([==]) to the identifier; hence it is false when the key is absent and
    when the key maps to any other value. *)
Theorem is_active_iff (self : Modifier) (c : Cart) :
  identifier self <> PyNone ->
  (PaymentModifier.is_active self c = true <->
   exists v, extra c !! "payment_modifier" = Some v /\
             py_eq v (identifier self) = true)
  /\
  (ShippingModifier.is_active self c = true <->
   exists v, extra c !! "shipping_modifier" = Some v /\
             py_eq v (identifier self) = true).
Proof.
  intros Hid. split.
  - exact (role_is_active_iff Payment self c Hid).
  - exact (role_is_active_iff Shipping self c Hid).
Qed.

Lemma is_active_iff_witness :
  (PaymentModifier.is_active express express_cart = true <->
   exists v, extra express_cart !! "payment_modifier" = Some v /\
             py_eq v (identifier express) = true)
  /\
  (ShippingModifier.is_active express express_cart = true <->
   exists v, extra express_cart !! "shipping_modifier" = Some v /\
             py_eq v (identifier express) = true).
Proof. apply (is_active_iff express express_cart). discriminate. Defined.

(** The two negative cases, spelled out. *)
Lemma is_active_absent (r : Role) (self : Modifier) (c : Cart) :
  identifier self <> PyNone ->
  extra c !! selection_key r = None ->
  role_is_active r self c = false.
Proof.
  intros Hid Habs. apply not_true_is_false. intros H.
  apply (role_is_active_iff r self c Hid) in H.
  destruct H as (v & Hv & _). rewrite Habs in Hv. discriminate Hv.
Qed.

Lemma is_active_other (r : Role) (self : Modifier) (c : Cart) (v : PyVal) :
  extra c !! selection_key r = Some v ->
  py_eq v (identifier self) = false ->
  role_is_active r self c = false.
Proof.
  intros Hv Hne. rewrite role_is_active_unfold. unfold dict_get.
  rewrite Hv. exact Hne.
Qed.

(** With a string identifier, equality of values is plain equality. *)
Lemma is_active_string (r : Role) (self : Modifier) (c : Cart) (s : string) :
  identifier self = PyStr s ->
  role_is_active r self c = true <-> extra c !! selection_key r = Some (PyStr s).
Proof.
  intros Hs.
  assert (Hid : identifier self <> PyNone) by (rewrite Hs; discriminate).
  rewrite (role_is_active_iff r self c Hid), Hs. split.
  - intros (v & Hv & Heq). apply py_eq_str in Heq. now subst.
  - intros H. exists (PyStr s). split; [exact H | apply py_eq_refl].
Qed.

(** Outside the data model: an instance whose identifier is [None] counts as
    active on a cart that records no selection at all. *)
Lemma is_active_None_identifier (r : Role) (cls : ModifierClass) (c : Cart) :
  extra c !! selection_key r = None ->
  role_is_active r {| mod_class := cls; identifier := PyNone |} c = true.
Proof.
  intros Habs. rewrite role_is_active_unfold. unfold dict_get.
  rewrite Habs. reflexivity.
Qed.

(** ** get_choice on the base classes *)

Lemma role_get_choice_raises (r : Role) (self : Modifier) :
  role_get_choice r self
  = inl (TypeError "'NotImplementedType' object is not callable").
Proof. destruct r; reflexivity. Qed.

(** C2.  On a class that does not override [get_choice], the call raises: the
    result is an exception (a [TypeError], since [NotImplemented] cannot be
    called) and never a value. *)
Theorem get_choice_raises (r : Role) (self : Modifier) :
  cls_get_choice (mod_class self) = None ->
  call_get_choice r self
  = inl (TypeError "'NotImplementedType' object is not callable")
  /\ forall choice, call_get_choice r self <> inr choice.
Proof.
  intros Hinh. unfold call_get_choice. rewrite Hinh.
  rewrite role_get_choice_raises. split; [reflexivity | discriminate].
Qed.

Lemma get_choice_raises_witness :
  call_get_choice Shipping express
  = inl (TypeError "'NotImplementedType' object is not callable")
  /\ forall choice, call_get_choice Shipping express <> inr choice.
Proof. apply (get_choice_raises Shipping express). reflexivity. Defined.

(** ** The identifier set by the constructor *)

Lemma init_identifier_default (cls : ModifierClass) :
  identifier (BaseCartModifier.__init__ cls PyNone)
  = match cls_identifier cls with
    | Some v => v
    | None => PyStr (lower (cls_name cls))
    end.
Proof. reflexivity. Qed.

Lemma init_identifier_given (cls : ModifierClass) (v : PyVal) :
  truthy v = true ->
  identifier (BaseCartModifier.__init__ cls v) = v.
Proof.
  intros Hv. unfold BaseCartModifier.__init__, py_or. simpl. now rewrite Hv.
Qed.

(** C3, as stated, fails on a class that sets the class attribute
    [identifier]: constructed without an identifier, the instance takes the
    class attribute, not the lower-cased class name. *)
Lemma init_identifier_class_attribute :
  identifier (BaseCartModifier.__init__ PayInAdvanceModifier PyNone)
  = PyStr "pay-in-advance"
  /\ identifier (BaseCartModifier.__init__ PayInAdvanceModifier PyNone)
     <> PyStr (lower (cls_name PayInAdvanceModifier)).
Proof. split; [reflexivity | discriminate]. Qed.

(** C3, amended.  For a class that defines no class attribute [identifier],
    an instance constructed without an identifier has the class name,
    lower-cased, as its identifier. *)
Theorem init_identifier_class_name (cls : ModifierClass) :
  cls_identifier cls = None ->
  identifier (BaseCartModifier.__init__ cls PyNone)
  = PyStr (lower (cls_name cls)).
Proof. intros Hnone. rewrite init_identifier_default, Hnone. reflexivity. Qed.

Lemma init_identifier_class_name_witness :
  identifier (BaseCartModifier.__init__ FlatTax10pct PyNone)
  = PyStr "flattax10pct".
Proof. apply (init_identifier_class_name FlatTax10pct). reflexivity. Defined.

(** ** The rendering context *)

Lemma role_update_render_context_unfold (r : Role) (self : Modifier)
    (context : gmap string CtxVal) :
  role_update_render_context r self context
  = match context !! namespace_key r with
    | None => <[namespace_key r := CtxDict ∅]> context
    | Some _ => context
    end.
Proof. destruct r; reflexivity. Qed.

Lemma update_render_context_present (r : Role) (self : Modifier)
    (context : gmap string CtxVal) (v : CtxVal) :
  context !! namespace_key r = Some v ->
  role_update_render_context r self context = context.
Proof.
  intros Hv. rewrite role_update_render_context_unfold, Hv. reflexivity.
Qed.

Lemma update_render_context_lookup (r : Role) (self : Modifier)
    (context : gmap string CtxVal) :
  role_update_render_context r self context !! namespace_key r
  = match context !! namespace_key r with
    | None => Some (CtxDict ∅)
    | Some v => Some v
    end.
Proof.
  rewrite role_update_render_context_unfold.
  destruct (context !! namespace_key r) as [v|] eqn:E.
  - exact E.
  - apply lookup_insert_eq.
Qed.

Lemma update_render_context_other (r : Role) (self : Modifier)
    (context : gmap string CtxVal) (k : string) :
  k <> namespace_key r ->
  role_update_render_context r self context !! k = context !! k.
Proof.
  intros Hk. rewrite role_update_render_context_unfold.
  destruct (context !! namespace_key r) as [v|] eqn:E.
  - reflexivity.
  - apply lookup_insert_ne. congruence.
Qed.

Lemma role_update_render_context_twice (r : Role) (self : Modifier)
    (context : gmap string CtxVal) :
  role_update_render_context r self (role_update_render_context r self context)
  = role_update_render_context r self context.
Proof.
  pose proof (update_render_context_lookup r self context) as Hl.
  destruct (context !! namespace_key r) as [v|];
    exact (update_render_context_present r self _ _ Hl).
Qed.

(** C4.  A second [update_render_context] on the same context changes
    nothing: the context, and with it the sub-mapping under
    ['payment_modifiers'] (resp. ['shipping_modifiers']), is as the first call
    left it. *)
Theorem update_render_context_idempotent (self : Modifier)
    (context : gmap string CtxVal) :
  let once_p := PaymentModifier.update_render_context self context in
  let once_s := ShippingModifier.update_render_context self context in
  (PaymentModifier.update_render_context self once_p = once_p /\
   PaymentModifier.update_render_context self once_p !! "payment_modifiers"
   = once_p !! "payment_modifiers")
  /\
  (ShippingModifier.update_render_context self once_s = once_s /\
   ShippingModifier.update_render_context self once_s !! "shipping_modifiers"
   = once_s !! "shipping_modifiers").
Proof.
  intros once_p once_s.
  pose proof (role_update_render_context_twice Payment self context) as Hp.
  pose proof (role_update_render_context_twice Shipping self context) as Hs.
  simpl in Hp, Hs. subst once_p once_s.
  split; (split; [| f_equal]); assumption.
Qed.

(** C10.  [update_render_context] leaves every key other than
    ['payment_modifiers'] (resp. ['shipping_modifiers']) as it was, and a
    context that already has that key is returned unchanged, so the value
    under the key is kept. *)
Theorem update_render_context_frame (self : Modifier)
    (context : gmap string CtxVal) :
  (forall k, k <> "payment_modifiers" ->
     PaymentModifier.update_render_context self context !! k = context !! k)
  /\ (forall v, context !! "payment_modifiers" = Some v ->
        PaymentModifier.update_render_context self context = context)
  /\ (forall k, k <> "shipping_modifiers" ->
        ShippingModifier.update_render_context self context !! k = context !! k)
  /\ (forall v, context !! "shipping_modifiers" = Some v ->
        ShippingModifier.update_render_context self context = context).
Proof.
  repeat split.
  - intros k. exact (update_render_context_other Payment self context k).
  - intros v. exact (update_render_context_present Payment self context v).
  - intros k. exact (update_render_context_other Shipping self context k).
  - intros v. exact (update_render_context_present Shipping self context v).
Qed.

Lemma update_render_context_frame_witness :
  PaymentModifier.update_render_context express sample_context !! "request"
  = sample_context !! "request"
  /\ PaymentModifier.update_render_context express sample_context
     = sample_context
  /\ ShippingModifier.update_render_context express sample_context
       !! "payment_modifiers"
     = Some (CtxObj (PyInt 7)).
Proof.
  destruct (update_render_context_frame express sample_context)
    as (Hother & Hkept & Hother' & _).
  split; [| split].
  - apply Hother. discriminate.
  - apply (Hkept (CtxObj (PyInt 7))). reflexivity.
  - rewrite Hother' by discriminate. reflexivity.
Defined.

(** ** Defaults of the base class *)

Lemma dispatch_calls_override (self : Modifier) (h : Hook)
    (body : Cart -> Cart) (inherited : Store -> Store) (s : Store) :
  dispatch self h (Some body) inherited s
  = {| cart := body (cart s);
       calls := calls s ++ [{| callee := self; hook := h |}] |}.
Proof. reflexivity. Qed.

Lemma dispatch_calls_inherited (self : Modifier) (h : Hook)
    (inherited : Store -> Store) (s : Store) :
  dispatch self h None inherited s = inherited (record_call self h s).
Proof. reflexivity. Qed.

Lemma self_add_extra_cart_item_row_effect (self : Modifier) (i : nat)
    (request : Request) (s : Store) :
  BaseCartModifier.self_add_extra_cart_item_row self i request s
  = {| cart := match cls_add_extra_cart_item_row (mod_class self) with
               | Some body => body i request (cart s)
               | None => cart s
               end;
       calls := calls s
                ++ [{| callee := self; hook := add_extra_cart_item_row_hook i |}] |}.
Proof.
  unfold BaseCartModifier.self_add_extra_cart_item_row.
  destruct (cls_add_extra_cart_item_row (mod_class self)); reflexivity.
Qed.

Lemma self_add_extra_cart_row_effect (self : Modifier) (request : Request)
    (s : Store) :
  BaseCartModifier.self_add_extra_cart_row self request s
  = {| cart := match cls_add_extra_cart_row (mod_class self) with
               | Some body => body request (cart s)
               | None => cart s
               end;
       calls := calls s
                ++ [{| callee := self; hook := add_extra_cart_row_hook |}] |}.
Proof.
  unfold BaseCartModifier.self_add_extra_cart_row.
  destruct (cls_add_extra_cart_row (mod_class self)); reflexivity.
Qed.

(** C5.  The default [process_cart_item] makes exactly one call, to
    [self.add_extra_cart_item_row], and the default [process_cart] exactly
    one, to [self.add_extra_cart_row]; the cart after the default is the cart
    that this one call leaves, which is the cart as it was when the row
    method is the (empty) default too. *)
Theorem default_process_calls_add_extra_row_once (self : Modifier) (i : nat)
    (request : Request) (s : Store) :
  (calls (BaseCartModifier.process_cart_item self i request s)
   = calls s ++ [{| callee := self; hook := add_extra_cart_item_row_hook i |}]
   /\ cart (BaseCartModifier.process_cart_item self i request s)
      = match cls_add_extra_cart_item_row (mod_class self) with
        | Some body => body i request (cart s)
        | None => cart s
        end)
  /\
  (calls (BaseCartModifier.process_cart self request s)
   = calls s ++ [{| callee := self; hook := add_extra_cart_row_hook |}]
   /\ cart (BaseCartModifier.process_cart self request s)
      = match cls_add_extra_cart_row (mod_class self) with
        | Some body => body request (cart s)
        | None => cart s
        end).
Proof.
  unfold BaseCartModifier.process_cart_item, BaseCartModifier.process_cart.
  rewrite self_add_extra_cart_item_row_effect, self_add_extra_cart_row_effect.
  simpl. repeat split.
Qed.

(** With the row methods inherited as well, the cart is untouched. *)
Lemma default_process_keeps_cart (self : Modifier) (i : nat)
    (request : Request) (s : Store) :
  cls_add_extra_cart_item_row (mod_class self) = None ->
  cls_add_extra_cart_row (mod_class self) = None ->
  cart (BaseCartModifier.process_cart_item self i request s) = cart s /\
  cart (BaseCartModifier.process_cart self request s) = cart s.
Proof.
  intros Hitem Hcart.
  unfold BaseCartModifier.process_cart_item, BaseCartModifier.process_cart.
  rewrite self_add_extra_cart_item_row_effect, self_add_extra_cart_row_effect.
  rewrite Hitem, Hcart. split; reflexivity.
Qed.

(** C8.  The default [arrange_watch_items] and [arrange_cart_items] return
    the list they are given. *)
Theorem arrange_items_identity (A : Type) (self : Modifier) (its : list A)
    (request : Request) :
  BaseCartModifier.arrange_watch_items self its request = its /\
  BaseCartModifier.arrange_cart_items self its request = its.
Proof. split; reflexivity. Qed.

Lemma role_is_disabled_false (r : Role) (self : Modifier) (c : Cart) :
  role_is_disabled r self c = false.
Proof. destruct r; reflexivity. Qed.

(** C9.  On a payment or shipping modifier whose class does not override
    [is_disabled], [is_disabled(cart)] is false for every cart. *)
Theorem is_disabled_default_false (r : Role) (self : Modifier) (c : Cart) :
  cls_is_disabled (mod_class self) = None ->
  call_is_disabled r self c = false.
Proof.
  intros Hinh. unfold call_is_disabled. rewrite Hinh.
  apply role_is_disabled_false.
Qed.

Lemma is_disabled_default_false_witness :
  call_is_disabled Shipping standard express_cart = false.
Proof.
  apply (is_disabled_default_false Shipping standard express_cart). reflexivity.
Defined.

(** ** Loops over modifiers and items *)

Section Loops.
Context {A : Type}.
Variable body : A -> Store -> Store.

Lemma for_each_nil (s : Store) : for_each [] body s = s.
Proof. reflexivity. Qed.

Lemma for_each_cons (x : A) (xs : list A) (s : Store) :
  for_each (x :: xs) body s = for_each xs body (body x s).
Proof. reflexivity. Qed.

(** When each round appends a log of its own, the loop appends them all. *)
Lemma for_each_calls (out : A -> list Call) (xs : list A) :
  (forall x s, calls (body x s) = calls s ++ out x) ->
  forall s, calls (for_each xs body s) = calls s ++ concat (map out xs).
Proof.
  intros Hbody. induction xs as [|x xs IH]; intros s.
  - rewrite for_each_nil. simpl. now rewrite app_nil_r.
  - rewrite for_each_cons, IH, Hbody. simpl. now rewrite <- app_assoc.
Qed.

(** A loop whose rounds keep the subtotal in step keeps it in step. *)
Lemma for_each_keeps_subtotal (xs : list A) :
  (forall x, In x xs -> keeps_subtotal (body x)) ->
  keeps_subtotal (for_each xs body).
Proof.
  induction xs as [|x xs IH]; intros Hbody s Hs.
  - exact Hs.
  - rewrite for_each_cons. apply IH.
    + intros y Hy. apply Hbody. now right.
    + apply Hbody; [now left | exact Hs].
Qed.

End Loops.

Lemma concat_map_singleton {A B : Type} (f : A -> B) (xs : list A) :
  concat (map (fun x => [f x]) xs) = map f xs.
Proof. induction xs as [|x xs IH]; simpl; congruence. Qed.

Lemma concat_map_nil {A B : Type} (xs : list A) :
  concat (map (fun _ : A => @nil B) xs) = [].
Proof. induction xs as [|x xs IH]; simpl; congruence. Qed.

(** ** The log of each hook call *)

Section HookLogs.
Variable request : Request.

Lemma calls_pre_process_cart (m : Modifier) (s : Store) :
  calls (call_pre_process_cart m request s)
  = calls s ++ [call_of pre_process_cart_hook m].
Proof.
  unfold call_pre_process_cart.
  destruct (cls_pre_process_cart (mod_class m)); reflexivity.
Qed.

Lemma calls_pre_process_cart_item (i : nat) (m : Modifier) (s : Store) :
  calls (call_pre_process_cart_item m i request s)
  = calls s ++ [call_of (pre_process_cart_item_hook i) m].
Proof.
  unfold call_pre_process_cart_item.
  destruct (cls_pre_process_cart_item (mod_class m)); reflexivity.
Qed.

Lemma calls_process_cart_item (i : nat) (m : Modifier) (s : Store) :
  calls (call_process_cart_item m i request s)
  = calls s ++ log_process_cart_item i m.
Proof.
  unfold call_process_cart_item, log_process_cart_item.
  destruct (cls_process_cart_item (mod_class m)) as [body|]; cbn [option_map].
  - reflexivity.
  - rewrite dispatch_calls_inherited.
    unfold BaseCartModifier.process_cart_item.
    rewrite self_add_extra_cart_item_row_effect. simpl.
    now rewrite <- app_assoc.
Qed.

Lemma calls_process_cart (m : Modifier) (s : Store) :
  calls (call_process_cart m request s) = calls s ++ log_process_cart m.
Proof.
  unfold call_process_cart, log_process_cart.
  destruct (cls_process_cart (mod_class m)) as [body|]; cbn [option_map].
  - reflexivity.
  - rewrite dispatch_calls_inherited.
    unfold BaseCartModifier.process_cart.
    rewrite self_add_extra_cart_row_effect. simpl.
    now rewrite <- app_assoc.
Qed.

Lemma calls_post_process_cart (m : Modifier) (s : Store) :
  calls (call_post_process_cart m request s)
  = calls s ++ [call_of post_process_cart_hook m].
Proof.
  unfold call_post_process_cart.
  destruct (cls_post_process_cart (mod_class m)); reflexivity.
Qed.

(** The log of a whole run: the first five steps, then [post_process_cart]
    over the reversed modifier list. *)
Lemma run_calls (M : list Modifier) (c : Cart) :
  exists n_pre n_item,
    calls (Pipeline.run M request c)
    = expected_calls M n_pre n_item
      ++ map (call_of post_process_cart_hook) (rev M).
Proof.
  unfold Pipeline.run.
  set (s0 := {| cart := c; calls := [] |}).
  set (s1 := for_each M _ s0).
  set (s2 := for_each (seq 0 (length (items (cart s1)))) _ s1).
  set (s3 := for_each (seq 0 (length (items (cart s2)))) _ s2).
  exists (length (items (cart s1))), (length (items (cart s2))).
  rewrite (for_each_calls _ (fun m => [call_of post_process_cart_hook m]))
    by (intros; apply calls_post_process_cart).
  rewrite (for_each_calls _ log_process_cart)
    by (intros; apply calls_process_cart).
  change (calls (on_cart _ s3)) with (calls s3).
  assert (H3 : calls s3 = calls s2
            ++ concat (map (fun i => concat (map (log_process_cart_item i) M))
                           (seq 0 (length (items (cart s2)))))).
  { subst s3. apply for_each_calls. intros i s.
    apply for_each_calls. intros m s'. apply calls_process_cart_item. }
  assert (H2 : calls s2 = calls s1
            ++ concat (map (fun i => map (call_of (pre_process_cart_item_hook i)) M)
                           (seq 0 (length (items (cart s1)))))).
  { subst s2. apply for_each_calls. intros i s.
    rewrite <- concat_map_singleton.
    apply for_each_calls. intros m s'. apply calls_pre_process_cart_item. }
  assert (H1 : calls s1 = map (call_of pre_process_cart_hook) M).
  { subst s1. rewrite <- concat_map_singleton.
    rewrite (for_each_calls _ (fun m => [call_of pre_process_cart_hook m]))
      by (intros; apply calls_pre_process_cart).
    reflexivity. }
  rewrite H3, H2, H1, concat_map_singleton. unfold expected_calls.
  now rewrite <- !app_assoc.
Qed.

End HookLogs.

(** ** Who received which hook *)

Lemma receivers_app (h : Hook) (l1 l2 : list Call) :
  receivers h (l1 ++ l2) = receivers h l1 ++ receivers h l2.
Proof. unfold receivers. now rewrite List.filter_app, map_app. Qed.

Lemma receivers_concat_none {A : Type} (h : Hook) (out : A -> list Call)
    (xs : list A) :
  (forall x, receivers h (out x) = []) ->
  receivers h (concat (map out xs)) = [].
Proof.
  intros Hout. induction xs as [|x xs IH]; simpl.
  - reflexivity.
  - now rewrite receivers_app, Hout, IH.
Qed.

Lemma receivers_concat_one (h : Hook) (out : Modifier -> list Call)
    (M : list Modifier) :
  (forall m, receivers h (out m) = [m]) ->
  receivers h (concat (map out M)) = M.
Proof.
  intros Hout. induction M as [|m M IH]; simpl.
  - reflexivity.
  - now rewrite receivers_app, Hout, IH.
Qed.

Lemma receivers_map_none (h h' : Hook) (M : list Modifier) :
  (forall m, is_hook h (call_of h' m) = false) ->
  receivers h (map (call_of h') M) = [].
Proof.
  intros Hne. rewrite <- concat_map_singleton.
  apply receivers_concat_none. intros m. unfold receivers. simpl.
  now rewrite Hne.
Qed.

Lemma receivers_map_same (h : Hook) (M : list Modifier) :
  (forall m, is_hook h (call_of h m) = true) ->
  receivers h (map (call_of h) M) = M.
Proof.
  intros Hsame. rewrite <- concat_map_singleton.
  apply receivers_concat_one. intros m. unfold receivers. simpl.
  now rewrite Hsame.
Qed.

Lemma receivers_post_log_process_cart_item (i : nat) (m : Modifier) :
  receivers post_process_cart_hook (log_process_cart_item i m) = [].
Proof.
  unfold log_process_cart_item.
  destruct (cls_process_cart_item (mod_class m)); reflexivity.
Qed.

Lemma receivers_post_log_process_cart (m : Modifier) :
  receivers post_process_cart_hook (log_process_cart m) = [].
Proof.
  unfold log_process_cart. destruct (cls_process_cart (mod_class m)); reflexivity.
Qed.

Lemma receivers_process_cart_log_process_cart_item (i : nat) (m : Modifier) :
  receivers process_cart_hook (log_process_cart_item i m) = [].
Proof.
  unfold log_process_cart_item.
  destruct (cls_process_cart_item (mod_class m)); reflexivity.
Qed.

Lemma receivers_process_cart_log_process_cart (m : Modifier) :
  receivers process_cart_hook (log_process_cart m) = [m].
Proof.
  unfold log_process_cart. destruct (cls_process_cart (mod_class m)); reflexivity.
Qed.

(** No [post_process_cart] during the first five steps. *)
Lemma receivers_post_expected_calls (M : list Modifier) (n_pre n_item : nat) :
  receivers post_process_cart_hook (expected_calls M n_pre n_item) = [].
Proof.
  unfold expected_calls. rewrite !receivers_app.
  rewrite receivers_map_none by reflexivity.
  rewrite receivers_concat_none
    by (intros i; apply receivers_map_none; reflexivity).
  rewrite receivers_concat_none
    by (intros i; apply receivers_concat_none;
        apply receivers_post_log_process_cart_item).
  rewrite receivers_concat_none by apply receivers_post_log_process_cart.
  reflexivity.
Qed.

(** Every modifier's [process_cart], in list order, within those steps. *)
Lemma receivers_process_cart_expected_calls (M : list Modifier)
    (n_pre n_item : nat) :
  receivers process_cart_hook (expected_calls M n_pre n_item) = M.
Proof.
  unfold expected_calls. rewrite !receivers_app.
  rewrite receivers_map_none by reflexivity.
  rewrite receivers_concat_none
    by (intros i; apply receivers_map_none; reflexivity).
  rewrite receivers_concat_none
    by (intros i; apply receivers_concat_none;
        apply receivers_process_cart_log_process_cart_item).
  rewrite receivers_concat_one by apply receivers_process_cart_log_process_cart.
  reflexivity.
Qed.

(** C7.  The calls of a run end with [post_process_cart] sent to the
    modifiers in the reverse of the configured order; before that tail no
    [post_process_cart] is sent, and every modifier's [process_cart] has been
    called (in list order).  So the receivers of [post_process_cart] over the
    whole run are exactly the reversed list. *)
Theorem post_process_cart_in_reverse_order (M : list Modifier)
    (request : Request) (c : Cart) :
  exists before,
    calls (Pipeline.run M request c)
    = before ++ map (call_of post_process_cart_hook) (rev M)
    /\ receivers post_process_cart_hook before = []
    /\ receivers process_cart_hook before = M
    /\ receivers post_process_cart_hook (calls (Pipeline.run M request c))
       = rev M.
Proof.
  destruct (run_calls request M c) as (n_pre & n_item & Hrun).
  exists (expected_calls M n_pre n_item).
  split; [exact Hrun |]. split; [apply receivers_post_expected_calls |].
  split; [apply receivers_process_cart_expected_calls |].
  rewrite Hrun, receivers_app, receivers_post_expected_calls.
  apply receivers_map_same. reflexivity.
Qed.

(** The order for three modifiers: forward for [process_cart], backward for
    [post_process_cart]. *)
Example post_process_cart_order_of_three :
  let run := Pipeline.run [default_pricing; flat_tax; standard] ∅ sample_cart in
  receivers process_cart_hook (calls run) = [default_pricing; flat_tax; standard]
  /\ receivers post_process_cart_hook (calls run)
     = [standard; flat_tax; default_pricing].
Proof. split; reflexivity. Qed.

(** ** The subtotal after a run *)

Lemma consistent_set_subtotal (c : Cart) :
  consistent (set_subtotal (py_sum (map line_total (items c))) c).
Proof. reflexivity. Qed.

(** Step 4 puts subtotal and line totals in step; steps 5 and 6 keep them
    so when every hook they call does. *)
Lemma run_consistent (M : list Modifier) (request : Request) (c : Cart) :
  (forall m, In m M ->
     keeps_subtotal (call_process_cart m request) /\
     keeps_subtotal (call_post_process_cart m request)) ->
  consistent (cart (Pipeline.run M request c)).
Proof.
  intros Hcontract. unfold Pipeline.run.
  apply (for_each_keeps_subtotal
           (fun m => call_post_process_cart m request) (rev M)).
  { intros m Hm. apply in_rev in Hm. now apply Hcontract. }
  apply (for_each_keeps_subtotal (fun m => call_process_cart m request) M).
  { intros m Hm. now apply Hcontract. }
  apply consistent_set_subtotal.
Qed.

(** A hook that touches neither the subtotal nor any line total keeps them
    in step. *)
Lemma keeps_subtotal_of_frame (f : Store -> Store) :
  (forall s, subtotal (cart (f s)) = subtotal (cart s) /\
             map line_total (items (cart (f s)))
             = map line_total (items (cart s))) ->
  keeps_subtotal f.
Proof.
  intros Hframe s Hs. unfold consistent in *.
  destruct (Hframe s) as [-> ->]. exact Hs.
Qed.

(** The inherited [post_process_cart] does nothing, so it qualifies. *)
Lemma keeps_subtotal_default_post_process_cart (m : Modifier)
    (request : Request) :
  cls_post_process_cart (mod_class m) = None ->
  keeps_subtotal (call_post_process_cart m request).
Proof.
  intros Hinh s Hs. unfold call_post_process_cart. rewrite Hinh. exact Hs.
Qed.

(** C6, as stated, fails: the subtotal is taken once, before
    [process_cart] and [post_process_cart] run, and is not taken again.  A
    modifier whose [post_process_cart] alters a line total leaves the
    subtotal behind. *)
Lemma run_subtotal_differs_after_late_change :
  subtotal (cart (Pipeline.run
                    [default_pricing;
                     BaseCartModifier.__init__ RoundingCorrection PyNone]
                    ∅ sample_cart)) = 2000
  /\ py_sum (map line_total
               (items (cart (Pipeline.run
                               [default_pricing;
                                BaseCartModifier.__init__ RoundingCorrection
                                                          PyNone]
                               ∅ sample_cart)))) = 1999
  /\ subtotal (cart (Pipeline.run
                       [default_pricing;
                        BaseCartModifier.__init__ RoundingCorrection PyNone]
                       ∅ sample_cart))
     <> py_sum (map line_total
                  (items (cart (Pipeline.run
                                  [default_pricing;
                                   BaseCartModifier.__init__ RoundingCorrection
                                                             PyNone]
                                  ∅ sample_cart)))).
Proof. vm_compute. repeat split. discriminate. Qed.

(** C6, amended.  After a run the subtotal is the sum of the items' line
    totals, whatever the hooks of the first three steps did to the line
    totals, for every modifier list in which the two hooks that run after
    the subtotal is taken ([process_cart] and [post_process_cart]) leave
    subtotal and line totals in step when they find them so. *)
Theorem run_subtotal_is_sum_of_line_totals (M : list Modifier)
    (request : Request) (c : Cart) :
  (forall m, In m M ->
     keeps_subtotal (call_process_cart m request) /\
     keeps_subtotal (call_post_process_cart m request)) ->
  subtotal (cart (Pipeline.run M request c))
  = py_sum (map line_total (items (cart (Pipeline.run M request c)))).
Proof. intros Hcontract. exact (run_consistent M request c Hcontract). Qed.

Lemma run_subtotal_is_sum_of_line_totals_witness :
  subtotal (cart (Pipeline.run [default_pricing; flat_tax] ∅ sample_cart))
  = py_sum (map line_total
              (items (cart (Pipeline.run [default_pricing; flat_tax] ∅
                                         sample_cart)))).
Proof.
  apply (run_subtotal_is_sum_of_line_totals [default_pricing; flat_tax] ∅
                                            sample_cart).
  intros m [<- | [<- | []]]; split; intros s Hs; exact Hs.
Defined.

(** The proviso is needed: a [post_process_cart] that rewrites the subtotal
    leaves it out of step with the line totals. *)
Lemma run_subtotal_needs_the_contract :
  let c := cart (Pipeline.run
                   [default_pricing; BaseCartModifier.__init__ SubtotalEraser PyNone]
                   ∅ sample_cart) in
  subtotal c = 0 /\ py_sum (map line_total (items c)) = 2000.
Proof. vm_compute. split; reflexivity. Qed.

(** ** More on equality of values *)

Lemma py_eq_sym (a b : PyVal) : py_eq a b = py_eq b a.
Proof.
  destruct a, b; simpl; try reflexivity.
  - apply Z.eqb_sym.
  - apply Z.eqb_sym.
  - apply Z.eqb_sym.
  - apply Z.eqb_sym.
  - apply String.eqb_sym.
Qed.

Lemma as_int_py_eq (a b : PyVal) (x : Z) :
  as_int a = Some x -> (py_eq a b = true <-> as_int b = Some x).
Proof.
  intros Ha. destruct a; simpl in Ha; try discriminate Ha;
    injection Ha as <-; destruct b; simpl; split; intros H;
    try discriminate H;
    try (apply Z.eqb_eq in H; now rewrite H);
    try (injection H as <-; apply Z.eqb_refl);
    try (injection H as H; rewrite H; apply Z.eqb_refl).
Qed.

Lemma py_eq_trans (a b c : PyVal) :
  py_eq a b = true -> py_eq b c = true -> py_eq a c = true.
Proof.
  intros Hab Hbc. destruct (as_int a) as [x|] eqn:Ha.
  - apply (as_int_py_eq a b x Ha) in Hab.
    apply (as_int_py_eq b c x Hab) in Hbc.
    now apply (as_int_py_eq a c x Ha).
  - destruct a; simpl in Ha; try discriminate Ha.
    + apply py_eq_None_l in Hab. subst b. exact Hbc.
    + rewrite py_eq_sym in Hab. apply py_eq_str in Hab. subst b. exact Hbc.
Qed.

Lemma truthy_not_None (v : PyVal) : truthy v = true -> v <> PyNone.
Proof. intros Hv ->. discriminate Hv. Qed.

(** ** The constructor's argument *)

(** X1.  An identifier that is true (a non-empty string, a non-zero number)
    becomes the instance's identifier whatever the class says; an identifier
    that is false (the empty string, 0, [False]) is treated exactly as if
    none had been given. *)
Theorem init_identifier_argument (cls : ModifierClass) (v : PyVal) :
  (truthy v = true -> identifier (BaseCartModifier.__init__ cls v) = v) /\
  (truthy v = false ->
   BaseCartModifier.__init__ cls v = BaseCartModifier.__init__ cls PyNone).
Proof.
  unfold BaseCartModifier.__init__, py_or. simpl.
  split; intros Hv; now rewrite Hv.
Qed.

Lemma init_identifier_argument_witness :
  identifier (BaseCartModifier.__init__ PayInAdvanceModifier (PyStr "express"))
  = PyStr "express"
  /\ BaseCartModifier.__init__ PayInAdvanceModifier (PyStr "")
     = BaseCartModifier.__init__ PayInAdvanceModifier PyNone.
Proof.
  split.
  - apply (init_identifier_argument PayInAdvanceModifier (PyStr "express")).
    reflexivity.
  - apply (init_identifier_argument PayInAdvanceModifier (PyStr "")).
    reflexivity.
Defined.

(** X2.  Handing an instance's identifier back to the constructor of its
    class gives the same instance again. *)
Theorem init_identifier_round_trip (cls : ModifierClass) (v : PyVal) :
  BaseCartModifier.__init__ cls
    (identifier (BaseCartModifier.__init__ cls v))
  = BaseCartModifier.__init__ cls v.
Proof.
  unfold BaseCartModifier.__init__, py_or. simpl. f_equal.
  destruct (truthy v) eqn:Hv.
  - now rewrite Hv.
  - destruct (truthy (BaseCartModifier.getattr_identifier cls
                        (PyStr (lower (cls_name cls))))); reflexivity.
Qed.

Lemma init_identifier_not_None (cls : ModifierClass) (v : PyVal) :
  cls_identifier cls <> Some PyNone ->
  identifier (BaseCartModifier.__init__ cls v) <> PyNone.
Proof.
  intros Hcls. unfold BaseCartModifier.__init__, py_or. simpl.
  destruct (truthy v) eqn:Hv.
  - now apply truthy_not_None.
  - unfold BaseCartModifier.getattr_identifier.
    destruct (cls_identifier cls) as [a|]; [congruence | discriminate].
Qed.

(** X3.  An instance made by the constructor, of a class whose class
    attribute [identifier] is not [None], is not active on a cart that
    records no selection for the role. *)
Theorem constructed_inactive_without_selection (r : Role)
    (cls : ModifierClass) (v : PyVal) (c : Cart) :
  cls_identifier cls <> Some PyNone ->
  extra c !! selection_key r = None ->
  role_is_active r (BaseCartModifier.__init__ cls v) c = false.
Proof.
  intros Hcls Habs. apply is_active_absent; [| exact Habs].
  now apply init_identifier_not_None.
Qed.

Lemma constructed_inactive_without_selection_witness :
  role_is_active Payment
    (BaseCartModifier.__init__ PayInAdvanceModifier PyNone) express_cart
  = false.
Proof.
  apply (constructed_inactive_without_selection Payment PayInAdvanceModifier
           PyNone express_cart).
  - discriminate.
  - reflexivity.
Defined.

(** ** Lower-casing *)

Lemma lower_ascii_idempotent (ch : ascii) :
  lower_ascii (lower_ascii ch) = lower_ascii ch.
Proof. destruct ch as [[] [] [] [] [] [] [] []]; reflexivity. Qed.

Lemma lower_idempotent (s : string) : lower (lower s) = lower s.
Proof.
  induction s as [|ch s IH]; simpl.
  - reflexivity.
  - now rewrite lower_ascii_idempotent, IH.
Qed.

Lemma lower_length (s : string) : String.length (lower s) = String.length s.
Proof. induction s as [|ch s IH]; simpl; congruence. Qed.

(** X4.  The identifier a class without class attribute gives by default is
    a string as long as the class name on which lower-casing changes
    nothing. *)
Theorem default_identifier_is_lower_case (cls : ModifierClass) :
  cls_identifier cls = None ->
  exists s,
    identifier (BaseCartModifier.__init__ cls PyNone) = PyStr s
    /\ lower s = s
    /\ String.length s = String.length (cls_name cls).
Proof.
  intros Hnone. exists (lower (cls_name cls)).
  rewrite init_identifier_default, Hnone.
  split; [reflexivity |]. split; [apply lower_idempotent | apply lower_length].
Qed.

Lemma default_identifier_is_lower_case_witness :
  exists s,
    identifier (BaseCartModifier.__init__ DefaultPricing PyNone) = PyStr s
    /\ lower s = s
    /\ String.length s = String.length (cls_name DefaultPricing).
Proof. apply (default_identifier_is_lower_case DefaultPricing). reflexivity. Defined.

(** ** Activation: one selection per role *)

(** X5.  Two modifiers that are both active for a role on one cart have
    equal ([==]) identifiers. *)
Theorem is_active_exclusive (r : Role) (m1 m2 : Modifier) (c : Cart) :
  role_is_active r m1 c = true ->
  role_is_active r m2 c = true ->
  py_eq (identifier m1) (identifier m2) = true.
Proof.
  rewrite !role_is_active_unfold. intros H1 H2.
  rewrite py_eq_sym in H1. exact (py_eq_trans _ _ _ H1 H2).
Qed.

Lemma is_active_exclusive_witness :
  py_eq (identifier express)
        (identifier (BaseCartModifier.__init__ PayInAdvanceModifier
                       (PyStr "express")))
  = true.
Proof.
  apply (is_active_exclusive Shipping express
           (BaseCartModifier.__init__ PayInAdvanceModifier (PyStr "express"))
           express_cart); reflexivity.
Defined.

(** For string identifiers: different names are never active together. *)
Lemma is_active_distinct_strings (r : Role) (m1 m2 : Modifier) (c : Cart)
    (s1 s2 : string) :
  identifier m1 = PyStr s1 -> identifier m2 = PyStr s2 -> s1 <> s2 ->
  role_is_active r m1 c = true -> role_is_active r m2 c = false.
Proof.
  intros H1 H2 Hne Hact. apply not_true_is_false. intros Hact2.
  apply (is_active_string r m1 c s1 H1) in Hact.
  apply (is_active_string r m2 c s2 H2) in Hact2.
  congruence.
Qed.

Lemma role_is_active_same_entry (r : Role) (self : Modifier) (c c' : Cart) :
  extra c !! selection_key r = extra c' !! selection_key r ->
  role_is_active r self c = role_is_active r self c'.
Proof.
  intros Hkey. rewrite !role_is_active_unfold. unfold dict_get.
  now rewrite Hkey.
Qed.

(** X6.  Whether a modifier is active depends on the cart only through the
    entry of [cart.extra] under the role's key. *)
Theorem is_active_depends_on_own_key (r : Role) (self : Modifier)
    (c c' : Cart) :
  extra c !! selection_key r = extra c' !! selection_key r ->
  role_is_active r self c = role_is_active r self c'.
Proof. exact (role_is_active_same_entry r self c c'). Qed.

Lemma is_active_depends_on_own_key_witness :
  role_is_active Payment express express_cart
  = role_is_active Payment express sample_cart.
Proof.
  apply (is_active_depends_on_own_key Payment express express_cart sample_cart).
  reflexivity.
Defined.

(** X7.  Once a modifier's identifier is recorded for a role, that modifier
    is active for the role, and any modifier is active exactly when its
    identifier equals ([==]) the recorded one. *)
Theorem select_activates (r : Role) (self m : Modifier) (c : Cart) :
  role_is_active r self (select r (identifier self) c) = true /\
  role_is_active r m (select r (identifier self) c)
  = py_eq (identifier self) (identifier m).
Proof.
  rewrite !role_is_active_unfold. unfold dict_get, select. simpl.
  rewrite lookup_insert_eq. split; [apply py_eq_refl | reflexivity].
Qed.

(** X8.  Recording a selection for one role does not change which modifiers
    are active for the other role. *)
Theorem select_other_role_untouched (m : Modifier) (v : PyVal) (c : Cart) :
  PaymentModifier.is_active m (select Shipping v c)
  = PaymentModifier.is_active m c
  /\ ShippingModifier.is_active m (select Payment v c)
     = ShippingModifier.is_active m c.
Proof.
  split.
  - apply (role_is_active_same_entry Payment). simpl.
    now apply lookup_insert_ne.
  - apply (role_is_active_same_entry Shipping). simpl.
    now apply lookup_insert_ne.
Qed.

(** ** The rendering context after the call *)

Lemma update_render_context_dom_role (r : Role) (self : Modifier)
    (context : gmap string CtxVal) :
  dom (role_update_render_context r self context)
  = {[ namespace_key r ]} ∪ dom context.
Proof.
  rewrite role_update_render_context_unfold.
  destruct (context !! namespace_key r) as [v|] eqn:E.
  - symmetry. apply subseteq_union_1_L, singleton_subseteq_l.
    apply elem_of_dom. now exists v.
  - apply dom_insert_L.
Qed.

(** X9.  After [update_render_context] the context has the keys it had and
    the namespaced key, nothing else; under that key is the value that was
    there, or an empty dict when there was none. *)
Theorem update_render_context_result (self : Modifier)
    (context : gmap string CtxVal) :
  (dom (PaymentModifier.update_render_context self context)
   = {[ "payment_modifiers" ]} ∪ dom context
   /\ PaymentModifier.update_render_context self context !! "payment_modifiers"
      = Some (match context !! "payment_modifiers" with
              | Some v => v
              | None => CtxDict ∅
              end))
  /\
  (dom (ShippingModifier.update_render_context self context)
   = {[ "shipping_modifiers" ]} ∪ dom context
   /\ ShippingModifier.update_render_context self context !! "shipping_modifiers"
      = Some (match context !! "shipping_modifiers" with
              | Some v => v
              | None => CtxDict ∅
              end)).
Proof.
  pose proof (update_render_context_dom_role Payment self context) as Hdp.
  pose proof (update_render_context_dom_role Shipping self context) as Hds.
  pose proof (update_render_context_lookup Payment self context) as Hlp.
  pose proof (update_render_context_lookup Shipping self context) as Hls.
  simpl in Hdp, Hds, Hlp, Hls.
  repeat split; try assumption.
  - rewrite Hlp. now destruct (context !! "payment_modifiers").
  - rewrite Hls. now destruct (context !! "shipping_modifiers").
Qed.

Lemma role_update_render_context_commute (r1 r2 : Role) (m1 m2 : Modifier)
    (context : gmap string CtxVal) :
  namespace_key r1 <> namespace_key r2 ->
  role_update_render_context r1 m1 (role_update_render_context r2 m2 context)
  = role_update_render_context r2 m2 (role_update_render_context r1 m1 context).
Proof.
  intros Hne. apply map_eq. intros k.
  destruct (decide (k = namespace_key r1)) as [-> | H1].
  - rewrite (update_render_context_other r2 m2 _ (namespace_key r1)) by exact Hne.
    rewrite !update_render_context_lookup.
    now rewrite (update_render_context_other r2 m2 _ (namespace_key r1))
      by exact Hne.
  - rewrite (update_render_context_other r1 m1 _ k) by exact H1.
    destruct (decide (k = namespace_key r2)) as [-> | H2].
    + rewrite !update_render_context_lookup.
      now rewrite (update_render_context_other r1 m1 _ (namespace_key r2))
        by exact H1.
    + rewrite !(update_render_context_other r2 m2 _ k) by exact H2.
      now rewrite (update_render_context_other r1 m1 _ k) by exact H1.
Qed.

(** X10.  The payment and the shipping update do not interfere: either
    order gives the same context. *)
Theorem update_render_context_commute (p s : Modifier)
    (context : gmap string CtxVal) :
  PaymentModifier.update_render_context p
    (ShippingModifier.update_render_context s context)
  = ShippingModifier.update_render_context s
      (PaymentModifier.update_render_context p context).
Proof.
  apply (role_update_render_context_commute Payment Shipping p s context).
  discriminate.
Qed.

(** ** A class that overrides no hook *)

(** X11.  On an instance of a class that overrides none of the hooks, every
    hook of the cart protocol leaves the cart as it is. *)
Theorem plain_modifier_is_inert (m : Modifier) (i : nat) (request : Request)
    (s : Store) :
  inherits_all_hooks (mod_class m) ->
  cart (call_pre_process_cart m request s) = cart s /\
  cart (call_pre_process_cart_item m i request s) = cart s /\
  cart (call_process_cart_item m i request s) = cart s /\
  cart (call_process_cart m request s) = cart s /\
  cart (call_post_process_cart m request s) = cart s.
Proof.
  intros (H1 & H2 & H3 & H4 & H5 & H6 & H7).
  unfold call_pre_process_cart, call_pre_process_cart_item,
    call_process_cart_item, call_process_cart, call_post_process_cart.
  rewrite H1, H2, H3, H4, H5. cbn [option_map].
  rewrite !dispatch_calls_inherited.
  unfold BaseCartModifier.process_cart_item, BaseCartModifier.process_cart.
  rewrite self_add_extra_cart_item_row_effect, self_add_extra_cart_row_effect.
  rewrite H6, H7. repeat split.
Qed.

Lemma plain_modifier_is_inert_witness :
  cart (call_pre_process_cart standard ∅
          {| cart := sample_cart; calls := [] |}) = sample_cart /\
  cart (call_pre_process_cart_item standard 0 ∅
          {| cart := sample_cart; calls := [] |}) = sample_cart /\
  cart (call_process_cart_item standard 0 ∅
          {| cart := sample_cart; calls := [] |}) = sample_cart /\
  cart (call_process_cart standard ∅
          {| cart := sample_cart; calls := [] |}) = sample_cart /\
  cart (call_post_process_cart standard ∅
          {| cart := sample_cart; calls := [] |}) = sample_cart.
Proof.
  apply (plain_modifier_is_inert standard 0 ∅
           {| cart := sample_cart; calls := [] |}).
  repeat split.
Defined.
